(** * The authenticated API client of the website frontend

    A shallow embedding of [frontend/src/lib/api.ts]: the class [ApiService],
    its private helpers [getAuthToken] and [makeRequest], and its nine public
    methods.  The identity provider ([auth] of [./firebase]), the global
    [fetch] and [console.error] are the collaborators of the module; they
    appear here as a record of oracles ([World]) and as events of a trace.

    An [async] function is a computation in the monad [Async]: it threads the
    trace of observable events and finishes either resolved with a value or
    rejected with the thrown error.  [await] is the bind of that monad, and
    [try { .. } catch (e) { .. }] is [try_catch]. *)

From Stdlib Require Import Ascii String NArith.
From stdpp Require Import base option list strings pretty gmap.

Local Open Scope string_scope.
Local Set Warnings "-register-all".

(** ** JavaScript values *)

(** Numbers of the runtime are IEEE-754 doubles.  Nothing in the client
    computes with them: it only tests them for truthiness and prints them.
    They are kept abstract behind this interface. *)
Class JsNumber := {
  number : Type;
  (* false for +0, -0 and NaN *)
  number_truthy : number → bool;
  (* false for NaN, +Infinity and -Infinity *)
  number_finite : number → bool;
  (* Number.prototype.toString *)
  number_to_string : number → string;
}.

Section Values.
Context `{JsNumber}.

(** Plain data: what [JSON.parse] produces (never [VUndefined]) and what the
    callers of the public methods pass as payloads.  The properties of an
    object are listed in enumeration order, each key once. *)
Inductive value : Type :=
  | VUndefined
  | VNull
  | VBool (b : bool)
  | VNum (n : number)
  | VStr (s : string)
  | VArr (elems : list value)
  | VObj (props : list (string * value)).

(** A thrown [Error] object. *)
Record exn : Type := mkExn { err_name : string; err_message : string }.

(** ToBoolean, as used by [if (..)], [!] and [||]. *)
Definition ToBoolean (v : value) : bool :=
  match v with
  | VUndefined | VNull => false
  | VBool b => b
  | VNum n => number_truthy n
  | VStr s => negb (String.eqb s "")
  | VArr _ | VObj _ => true
  end.

Fixpoint join (sep : string) (l : list string) : string :=
  match l with
  | [] => ""
  | [s] => s
  | s :: rest => s +:+ sep +:+ join sep rest
  end.

(** Whether an object has an own property of that name. *)
Definition has_prop (key : string) (props : list (string * value)) : bool :=
  existsb (λ kv, String.eqb (fst kv) key) props.

(** ToString on plain data.  An array prints as its elements joined by
    commas, with [null] and [undefined] elements printed as nothing.  An
    object prints through [Object.prototype.toString] as
    ["[object Object]"], unless an own property [toString] shadows that
    method: data is never callable, the inherited [valueOf] returns the
    object itself, and the conversion throws a TypeError. *)
Fixpoint ToString (v : value) : exn + string :=
  match v with
  | VUndefined => inr "undefined"
  | VNull => inr "null"
  | VBool b => inr (if b then "true" else "false")
  | VNum n => inr (number_to_string n)
  | VStr s => inr s
  | VArr elems =>
      match
        (fix each (l : list value) : exn + list string :=
           match l with
           | [] => inr []
           | x :: rest =>
               match (match x with
                      | VUndefined | VNull => inr ""
                      | _ => ToString x
                      end) with
               | inl e => inl e
               | inr s =>
                   match each rest with
                   | inl e => inl e
                   | inr ss => inr (s :: ss)
                   end
               end
           end) elems
      with
      | inl e => inl e
      | inr ss => inr (join "," ss)
      end
  | VObj props =>
      if has_prop "toString" props
      then inl (mkExn "TypeError" "Cannot convert object to primitive value")
      else inr "[object Object]"
  end.

(** [new Error(message)]: the message is set, converted to a string, unless
    the argument is [undefined]; [inl] when the conversion throws instead. *)
Definition new_Error (message : value) : exn + exn :=
  match message with
  | VUndefined => inr (mkExn "Error" "")
  | _ =>
      match ToString message with
      | inl e => inl e
      | inr s => inr (mkExn "Error" s)
      end
  end.

Fixpoint lookup_prop (key : string) (props : list (string * value)) : value :=
  match props with
  | [] => VUndefined
  | (k, v) :: rest => if String.eqb k key then v else lookup_prop key rest
  end.

(** The property read [data.message].  Reading a property of [null] or
    [undefined] throws a TypeError; primitives and arrays have no property of
    that name, neither own nor inherited. *)
Definition get_message (data : value) : exn + value :=
  match data with
  | VUndefined =>
      inl (mkExn "TypeError" "Cannot read properties of undefined (reading 'message')")
  | VNull =>
      inl (mkExn "TypeError" "Cannot read properties of null (reading 'message')")
  | VObj props => inr (lookup_prop "message" props)
  | VBool _ | VNum _ | VStr _ | VArr _ => inr VUndefined
  end.

(** *** JSON.stringify *)

Definition dquote : string := String (ascii_of_N 34) "".

Definition hex_digit (n : N) : ascii :=
  ascii_of_N (if (n <? 10)%N then 48 + n else 87 + n).

Definition quote_char (c : ascii) : string :=
  let n := N_of_ascii c in
  if (n =? 34)%N then "\" +:+ dquote
  else if (n =? 92)%N then "\\"
  else if (n =? 8)%N then "\b"
  else if (n =? 12)%N then "\f"
  else if (n =? 10)%N then "\n"
  else if (n =? 13)%N then "\r"
  else if (n =? 9)%N then "\t"
  else if (n <? 32)%N then
    "\u00" +:+ String (hex_digit (n `div` 16)) (String (hex_digit (n `mod` 16)) "")
  else String c "".

Fixpoint quote_body (s : string) : string :=
  match s with
  | EmptyString => ""
  | String c rest => quote_char c +:+ quote_body rest
  end.

(** QuoteJSONString *)
Definition quote (s : string) : string := dquote +:+ quote_body s +:+ dquote.

(** [JSON.stringify(v)] without replacer or indentation; [None] is the result
    [undefined].  A property whose value is [undefined] is left out of an
    object, an [undefined] element of an array is written [null], and so is a
    number that is not finite. *)
Fixpoint JSON_stringify (v : value) : option string :=
  match v with
  | VUndefined => None
  | VNull => Some "null"
  | VBool b => Some (if b then "true" else "false")
  | VNum n => Some (if number_finite n then number_to_string n else "null")
  | VStr s => Some (quote s)
  | VArr elems =>
      Some ("[" +:+ join "," (map (λ x, default "null" (JSON_stringify x)) elems) +:+ "]")
  | VObj props =>
      Some ("{" +:+
            join "," (omap (λ kv, match JSON_stringify (snd kv) with
                                  | Some s => Some (quote (fst kv) +:+ ":" +:+ s)
                                  | None => None
                                  end) props)
            +:+ "}")
  end.

End Values.

(** ** Promises, effects and the collaborators *)

(** How a promise settles. *)
Inductive settled (A : Type) : Type :=
  | Fulfilled (a : A)
  | Rejected (e : exn).
Arguments Fulfilled {A} a.
Arguments Rejected {A} e.

Section Client.
Context {Num : JsNumber}.

(** What [fetch(url, init)] is called with: the members of [RequestInit] the
    client sets, and the URL. *)
Record Request : Type := mkRequest {
  req_url : string;
  req_method : option string;
  req_body : option string;
  req_headers : gmap string string;
}.

(** The [Response] members the client reads; [json] is how the promise of
    [response.json()] settles. *)
Record Response : Type := mkResponse {
  status : N;
  json : settled value;
}.

(** [response.ok]: the status is in the range 200-299. *)
Definition ok (response : Response) : bool :=
  (200 <=? status response)%N && (status response <=? 299)%N.

(** The Firebase user object; [getIdToken] is how the promise of
    [user.getIdToken()] settles. *)
Record FirebaseUser : Type := mkUser { getIdToken : settled string }.

(** The collaborators of one call: [auth.currentUser] and the global
    [fetch]. *)
Record World : Type := mkWorld {
  currentUser : option FirebaseUser;
  fetch : Request → settled Response;
}.

Inductive event : Type :=
  | EvFetch (request : Request)
  | EvConsoleError (label : string) (error : exn).

(** An asynchronous computation: it extends the trace and settles. *)
Definition Async (A : Type) : Type := list event → settled A * list event.

#[export] Instance Async_ret : MRet Async := λ A a tr, (Fulfilled a, tr).

#[export] Instance Async_bind : MBind Async := λ A B k m tr,
  match m tr with
  | (Fulfilled a, tr') => k a tr'
  | (Rejected e, tr') => (Rejected e, tr')
  end.

Definition throw {A} (e : exn) : Async A := λ tr, (Rejected e, tr).

Definition try_catch {A} (body : Async A) (handler : exn → Async A) : Async A :=
  λ tr,
    match body tr with
    | (Fulfilled a, tr') => (Fulfilled a, tr')
    | (Rejected e, tr') => handler e tr'
    end.

Definition await {A} (promise : settled A) : Async A := λ tr, (promise, tr).

Definition emit (ev : event) : Async unit := λ tr, (Fulfilled tt, (tr ++ [ev])%list).

Definition console_error (label : string) (error : exn) : Async unit :=
  emit (EvConsoleError label error).

Definition call_fetch (w : World) (request : Request) : Async Response :=
  emit (EvFetch request);; await (fetch w request).

Definition of_sum {A} (r : exn + A) : Async A :=
  match r with inl e => throw e | inr a => mret a end.

(** ** The module [lib/api.ts] *)

(** [process.env.NEXT_PUBLIC_API_URL || 'http://localhost:8000'] *)
Definition API_BASE_URL (NEXT_PUBLIC_API_URL : option string) : string :=
  match NEXT_PUBLIC_API_URL with
  | Some u => if String.eqb u "" then "http://localhost:8000" else u
  | None => "http://localhost:8000"
  end.

Record RequestInit : Type := mkInit {
  method : option string;
  body : option string;
  headers : option (gmap string string);
}.

(** The default [options = {}] of [makeRequest]. *)
Definition no_options : RequestInit := mkInit None None None.

Record ApiService : Type := mkApiService { baseURL : string }.

(** [constructor(baseURL: string = API_BASE_URL)] *)
Definition new_ApiService (NEXT_PUBLIC_API_URL : option string)
    (baseURL : option string) : ApiService :=
  mkApiService (default (API_BASE_URL NEXT_PUBLIC_API_URL) baseURL).

Definition getAuthToken (w : World) : Async (option string) :=
  try_catch
    (match currentUser w with
     | None => mret None
     | Some user =>
         token ← await (getIdToken user);
         mret (Some token)
     end)
    (λ error,
       console_error "Error getting auth token:" error;;
       mret None).

(** Lines 86-94 of [makeRequest]: the object literal with the spread of
    [options.headers], then the assignment guarded by [if (token)]. *)
Definition request_headers (options : RequestInit) (token : option string)
    : gmap string string :=
  let headers := default ∅ (headers options) ∪ {["Content-Type" := "application/json"]} in
  match token with
  | Some t =>
      if negb (String.eqb t "")
      then <["Authorization" := "Bearer " +:+ t]> headers
      else headers
  | None => headers
  end.

Definition makeRequest (this : ApiService) (w : World)
    (endpoint : string) (options : RequestInit) : Async value :=
  let url := baseURL this +:+ endpoint in
  token ← getAuthToken w;
  let headers := request_headers options token in
  try_catch
    (response ← call_fetch w (mkRequest url (method options) (body options) headers);
     data ← await (json response);
     if negb (ok response) then
       message ← of_sum (get_message data);
       error ← of_sum
         (new_Error (if ToBoolean message then message
                     else VStr ("HTTP error! status: " +:+ pretty (status response))));
       throw error
     else mret data)
    (λ error,
       console_error ("API request failed for " +:+ endpoint +:+ ":") error;;
       throw error).

Definition healthCheck (this : ApiService) (w : World) : Async value :=
  makeRequest this w "/health" no_options.

Definition signUp (this : ApiService) (w : World) (data : value) : Async value :=
  makeRequest this w "/api/auth/signup"
    (mkInit (Some "POST") (JSON_stringify data) None).

Definition createSocialUserProfile (this : ApiService) (w : World) (data : value)
    : Async value :=
  makeRequest this w "/api/auth/create-social-profile"
    (mkInit (Some "POST") (JSON_stringify data) None).

Definition verifyToken (this : ApiService) (w : World) : Async value :=
  makeRequest this w "/api/auth/verify-token" (mkInit (Some "POST") None None).

Definition resetPassword (this : ApiService) (w : World) (email : string)
    : Async value :=
  makeRequest this w "/api/auth/reset-password"
    (mkInit (Some "POST") (JSON_stringify (VObj [("email", VStr email)])) None).

Definition getProfile (this : ApiService) (w : World) : Async value :=
  makeRequest this w "/api/auth/profile" no_options.

Definition updateProfile (this : ApiService) (w : World) (data : value)
    : Async value :=
  makeRequest this w "/api/auth/profile"
    (mkInit (Some "PATCH") (JSON_stringify data) None).

Definition refreshToken (this : ApiService) (w : World) : Async value :=
  makeRequest this w "/api/auth/refresh-token" (mkInit (Some "POST") None None).

Definition deleteAccount (this : ApiService) (w : World) : Async value :=
  makeRequest this w "/api/auth/account" (mkInit (Some "DELETE") None None).

(** [export const apiService = new ApiService()] *)
Definition apiService (NEXT_PUBLIC_API_URL : option string) : ApiService :=
  new_ApiService NEXT_PUBLIC_API_URL None.

(** ** Calls of the public methods *)

(** A call of one of the nine public methods, with its arguments. *)
Inductive operation : Type :=
  | HealthCheck
  | SignUp (data : value)
  | CreateSocialUserProfile (data : value)
  | VerifyToken
  | ResetPassword (email : string)
  | GetProfile
  | UpdateProfile (data : value)
  | RefreshToken
  | DeleteAccount.

Definition invoke (this : ApiService) (w : World) (op : operation) : Async value :=
  match op with
  | HealthCheck => healthCheck this w
  | SignUp data => signUp this w data
  | CreateSocialUserProfile data => createSocialUserProfile this w data
  | VerifyToken => verifyToken this w
  | ResetPassword email => resetPassword this w email
  | GetProfile => getProfile this w
  | UpdateProfile data => updateProfile this w data
  | RefreshToken => refreshToken this w
  | DeleteAccount => deleteAccount this w
  end.

(** A call runs from the empty trace. *)
Definition run {A} (m : Async A) : settled A * list event := m [].

Definition outcome {A} (m : Async A) : settled A := fst (run m).

Definition trace {A} (m : Async A) : list event := snd (run m).

(** The requests handed to [fetch], in order. *)
Definition requests (tr : list event) : list Request :=
  omap (λ ev, match ev with EvFetch r => Some r | EvConsoleError _ _ => None end) tr.

(** The request [makeRequest] hands to [fetch], given the token that
    [getAuthToken] resolved with. *)
Definition request_of (this : ApiService) (endpoint : string)
    (options : RequestInit) (token : option string) : Request :=
  mkRequest (baseURL this +:+ endpoint) (method options) (body options)
    (request_headers options token).

(** How [makeRequest] settles, given how [fetch] settled: the body of its
    [try] block, whose [catch] rethrows. *)
Definition response_outcome (fetched : settled Response) : settled value :=
  match fetched with
  | Rejected e => Rejected e
  | Fulfilled response =>
      match json response with
      | Rejected e => Rejected e
      | Fulfilled data =>
          if ok response then Fulfilled data
          else match get_message data with
               | inl e => Rejected e
               | inr message =>
                   match new_Error
                           (if ToBoolean message then message
                            else VStr ("HTTP error! status: " +:+ pretty (status response)))
                   with
                   | inl e => Rejected e
                   | inr error => Rejected error
                   end
               end
      end
  end.

(** The endpoint table of the interface description: the path of each
    operation. *)
Definition spec_endpoint (op : operation) : string :=
  match op with
  | HealthCheck => "/health"
  | SignUp _ => "/api/auth/signup"
  | CreateSocialUserProfile _ => "/api/auth/create-social-profile"
  | VerifyToken => "/api/auth/verify-token"
  | ResetPassword _ => "/api/auth/reset-password"
  | GetProfile | UpdateProfile _ => "/api/auth/profile"
  | RefreshToken => "/api/auth/refresh-token"
  | DeleteAccount => "/api/auth/account"
  end.

(** What [getAuthToken] writes to the console: one entry when
    [user.getIdToken()] rejected, nothing otherwise. *)
Definition token_log (w : World) : list event :=
  match currentUser w with
  | Some user =>
      match getIdToken user with
      | Rejected e => [EvConsoleError "Error getting auth token:" e]
      | Fulfilled _ => []
      end
  | None => []
  end.

(** What the [catch] block of [makeRequest] writes to the console for a call
    that settled as [res]. *)
Definition failure_log (endpoint : string) (res : settled value) : list event :=
  match res with
  | Rejected e => [EvConsoleError ("API request failed for " +:+ endpoint +:+ ":") e]
  | Fulfilled _ => []
  end.

(** The [method] member each public method passes; [None] where it passes
    none and [fetch] uses GET. *)
Definition spec_method (op : operation) : option string :=
  match op with
  | HealthCheck | GetProfile => None
  | SignUp _ | CreateSocialUserProfile _ | VerifyToken | ResetPassword _
  | RefreshToken => Some "POST"
  | UpdateProfile _ => Some "PATCH"
  | DeleteAccount => Some "DELETE"
  end.

(** The value each public method serializes into the request body, if it
    sends one. *)
Definition spec_payload (op : operation) : option value :=
  match op with
  | SignUp data | CreateSocialUserProfile data | UpdateProfile data => Some data
  | ResetPassword email => Some (VObj [("email", VStr email)])
  | HealthCheck | VerifyToken | GetProfile | RefreshToken | DeleteAccount => None
  end.

(** [needle] occurs in [s]. *)
Fixpoint contains (needle s : string) : bool :=
  String.prefix needle s ||
  match s with
  | EmptyString => false
  | String _ rest => contains needle rest
  end.

End Client.

(** A runtime whose numbers are the integers, printed in decimal: enough to
    run the client on concrete payloads. *)
#[export] Instance integer_numbers : JsNumber := {|
  number := Z;
  number_truthy z := negb (z =? 0)%Z;
  number_finite _ := true;
  number_to_string z := pretty z;
|}.

(** ** Concrete worlds *)

(** A world whose [fetch] resolves every request with the same response. *)
Definition mock (user : option FirebaseUser) (response : Response) : World :=
  mkWorld user (λ _, Fulfilled response).

Definition signed_in (token : string) : option FirebaseUser :=
  Some (mkUser (Fulfilled token)).

Definition provider_error : exn := mkExn "FirebaseError" "auth/network-request-failed".

Definition failing_provider : option FirebaseUser :=
  Some (mkUser (Rejected provider_error)).

Definition ok_envelope : value :=
  VObj [("success", VBool true); ("message", VStr "ok");
        ("data", VObj [("uid", VStr "u1")])].

Definition invalid_token_envelope : value :=
  VObj [("success", VBool false); ("message", VStr "invalid token")].

Definition empty_message_envelope : value :=
  VObj [("success", VBool false); ("message", VStr "")].

Definition parse_error : exn := mkExn "SyntaxError" "Unexpected end of JSON input".

Definition ok_response : Response := mkResponse 200 (Fulfilled ok_envelope).

Definition invalid_token_response : Response :=
  mkResponse 401 (Fulfilled invalid_token_envelope).

Definition empty_message_response : Response :=
  mkResponse 401 (Fulfilled empty_message_envelope).

(** A response with an empty body, which [response.json()] cannot parse. *)
Definition empty_body (status : N) : Response := mkResponse status (Rejected parse_error).

Definition network_error : exn := mkExn "TypeError" "Failed to fetch".

(** A world whose [fetch] rejects every request: the network is down. *)
Definition offline (user : option FirebaseUser) : World :=
  mkWorld user (λ _, Rejected network_error).

Definition null_response : Response := mkResponse 500 (Fulfilled VNull).

Definition no_message_response : Response :=
  mkResponse 404 (Fulfilled (VObj [("success", VBool false)])).

Definition object_message_response : Response :=
  mkResponse 422
    (Fulfilled (VObj [("success", VBool false);
                      ("message", VObj [("email", VStr "is invalid")])])).

(** Options of a caller of [makeRequest] that brings its own headers. *)
Definition custom_headers : gmap string string :=
  {["Content-Type" := "text/plain"; "Authorization" := "Basic abc"; "X-Trace" := "1"]}.

Definition custom_options : RequestInit := mkInit (Some "PUT") None (Some custom_headers).

(** The request [getProfile] issues on the default client for a given
    token. *)
Definition profile_request (token : option string) : Request :=
  request_of (apiService None) "/api/auth/profile" no_options token.

(** * Properties *)

Section Properties.
Context {Num : JsNumber}.

(** ** The monad *)

Lemma bind_fulfilled {A B} (m : Async A) (k : A → Async B) tr a tr' :
  m tr = (Fulfilled a, tr') → (m ≫= k) tr = k a tr'.
Proof. intros Hm. unfold mbind, Async_bind. by rewrite Hm. Qed.

Lemma requests_app tr1 tr2 : requests (tr1 ++ tr2)%list = (requests tr1 ++ requests tr2)%list.
Proof. unfold requests. apply omap_app. Qed.

(** ** Token acquisition *)

Lemma getAuthToken_no_user w tr :
  currentUser w = None → getAuthToken w tr = (Fulfilled None, tr).
Proof. intros Hu. unfold getAuthToken, try_catch. by rewrite Hu. Qed.

Lemma getAuthToken_token w u t tr :
  currentUser w = Some u → getIdToken u = Fulfilled t →
  getAuthToken w tr = (Fulfilled (Some t), tr).
Proof.
  intros Hu Ht. unfold getAuthToken, try_catch. rewrite Hu.
  unfold mbind, Async_bind, await. by rewrite Ht.
Qed.

Lemma getAuthToken_throws w u e tr :
  currentUser w = Some u → getIdToken u = Rejected e →
  getAuthToken w tr =
    (Fulfilled None, (tr ++ [EvConsoleError "Error getting auth token:" e])%list).
Proof.
  intros Hu Ht. unfold getAuthToken, try_catch. rewrite Hu.
  unfold mbind, Async_bind, await. by rewrite Ht.
Qed.

(** [getAuthToken] never rejects and never calls [fetch]. *)
Lemma getAuthToken_total w tr :
  ∃ tok log, getAuthToken w tr = (Fulfilled tok, (tr ++ log)%list) ∧ requests log = [].
Proof.
  destruct (currentUser w) as [u|] eqn:Hu.
  - destruct (getIdToken u) as [t|e] eqn:Ht.
    + exists (Some t), []. rewrite app_nil_r. eauto using getAuthToken_token.
    + eexists None, [_]. eauto using getAuthToken_throws.
  - exists None, []. rewrite app_nil_r. eauto using getAuthToken_no_user.
Qed.

(** ** Header composition *)

Lemma request_headers_content_type options token :
  headers options = None →
  request_headers options token !! "Content-Type" = Some "application/json".
Proof.
  intros Hh. unfold request_headers. rewrite Hh. simpl.
  destruct token as [t|]; [destruct (String.eqb t "")|]; simpl;
    by simplify_map_eq.
Qed.

Lemma request_headers_bearer options t :
  t ≠ "" →
  request_headers options (Some t) !! "Authorization" = Some ("Bearer " +:+ t).
Proof.
  intros Ht. unfold request_headers.
  destruct (String.eqb_spec t ""); [done|]. simpl. by simplify_map_eq.
Qed.

Lemma request_headers_anonymous options token :
  headers options = None → token = None ∨ token = Some "" →
  request_headers options token !! "Authorization" = None.
Proof.
  intros Hh [-> | ->]; unfold request_headers; rewrite Hh; simpl;
    by simplify_map_eq.
Qed.

(** ** One request per call *)

(** The handler of [makeRequest] logs once and rethrows. *)
Lemma makeRequest_run this w endpoint options tok log :
  getAuthToken w [] = (Fulfilled tok, log) →
  ∃ res log',
    run (makeRequest this w endpoint options) =
      (res, (log ++ EvFetch (request_of this endpoint options tok) :: log')%list) ∧
    requests log' = [] ∧
    res = response_outcome (fetch w (request_of this endpoint options tok)).
Proof.
  intros Htok. unfold run, makeRequest, response_outcome.
  rewrite (bind_fulfilled _ _ _ _ _ Htok). fold (request_of this endpoint options tok).
  set (req := request_of this endpoint options tok).
  unfold try_catch, call_fetch, mbind, Async_bind, emit, await, console_error, emit, throw.
  simpl. destruct (fetch w req) as [response|e]; simpl.
  - destruct (json response) as [data|e]; simpl.
    + destruct (ok response); simpl.
      * by exists (Fulfilled data), [].
      * destruct (get_message data) as [e|message]; simpl.
        -- eexists _, [_]. by rewrite <- app_assoc.
        -- destruct (new_Error _) as [e|error]; simpl;
             eexists _, [_]; by rewrite <- app_assoc.
    + eexists _, [_]. by rewrite <- app_assoc.
  - eexists _, [_]. by rewrite <- app_assoc.
Qed.

(** Every public method is one call of [makeRequest] on its fixed endpoint
    path, with options that set no headers. *)
Lemma invoke_makeRequest this w op :
  ∃ options,
    headers options = None ∧
    invoke this w op = makeRequest this w (spec_endpoint op) options.
Proof. destruct op; simpl; eexists; split; try reflexivity; reflexivity. Qed.

(** The shape of every call of [makeRequest]: the token step, which never
    fails, then exactly one request, then the outcome decided by the
    response. *)
Lemma makeRequest_shape this w endpoint options :
  ∃ tok log,
    getAuthToken w [] = (Fulfilled tok, log) ∧
    requests (trace (makeRequest this w endpoint options)) =
      [request_of this endpoint options tok] ∧
    outcome (makeRequest this w endpoint options) =
      response_outcome (fetch w (request_of this endpoint options tok)).
Proof.
  destruct (getAuthToken_total w []) as (tok & log & Htok & Hlog).
  simpl in Htok.
  destruct (makeRequest_run this w endpoint options tok log Htok)
    as (res & log' & Hrun & Hlog' & ->).
  exists tok, log. repeat split; try done.
  - unfold trace. rewrite Hrun. simpl.
    rewrite requests_app. simpl. fold (requests log'). by rewrite Hlog, Hlog'.
  - unfold outcome. by rewrite Hrun.
Qed.

Lemma invoke_run this w op :
  ∃ options tok log,
    headers options = None ∧
    getAuthToken w [] = (Fulfilled tok, log) ∧
    requests (trace (invoke this w op)) =
      [request_of this (spec_endpoint op) options tok] ∧
    outcome (invoke this w op) =
      response_outcome (fetch w (request_of this (spec_endpoint op) options tok)).
Proof.
  destruct (invoke_makeRequest this w op) as (options & Hh & ->).
  destruct (makeRequest_shape this w (spec_endpoint op) options)
    as (tok & log & Htok & Hreq & Hout).
  by exists options, tok, log.
Qed.

(** The outcome of a call, from the one request it issued. *)
Lemma invoke_outcome this w op req :
  requests (trace (invoke this w op)) = [req] →
  outcome (invoke this w op) = response_outcome (fetch w req).
Proof.
  destruct (invoke_run this w op) as (options & tok & log & _ & _ & Hreq & Hout).
  rewrite Hreq. intros [= <-]. exact Hout.
Qed.

(** The headers of the one request of a call, from the token step. *)
Lemma invoke_headers this w op tok log :
  getAuthToken w [] = (Fulfilled tok, log) →
  ∃ req options,
    requests (trace (invoke this w op)) = [req] ∧
    headers options = None ∧
    req_headers req = request_headers options tok.
Proof.
  intros Htok.
  destruct (invoke_run this w op) as (options & tok' & log' & Hh & Htok' & Hreq & _).
  rewrite Htok in Htok'. injection Htok' as <- <-.
  by eexists _, options.
Qed.

Lemma prefix_refl s : String.prefix s s = true.
Proof.
  induction s as [|c s IH]; simpl; [done|].
  by destruct (ascii_dec c c).
Qed.

Lemma contains_app_r before needle : contains needle (before +:+ needle) = true.
Proof.
  induction before as [|c before IH]; simpl.
  - destruct needle; simpl; rewrite ?prefix_refl; [done|].
    by destruct (ascii_dec _ _).
  - rewrite IH. apply orb_true_r.
Qed.

(** ** Errors *)

(** On a failed response whose envelope has a truthy [message], the error is
    constructed from that message, or is what its conversion to a string
    throws. *)
Lemma error_from_truthy_message this w op req r data message :
  requests (trace (invoke this w op)) = [req] →
  fetch w req = Fulfilled r →
  ok r = false →
  json r = Fulfilled data →
  get_message data = inr message →
  ToBoolean message = true →
  outcome (invoke this w op) =
    Rejected (match new_Error message with inl e => e | inr error => error end).
Proof.
  intros Hreq Hfetch Hok Hjson Hmsg Htruthy.
  rewrite (invoke_outcome _ _ _ _ Hreq), Hfetch. unfold response_outcome.
  rewrite Hjson, Hok, Hmsg, Htruthy. by destruct (new_Error message).
Qed.

(** C1, as amended: on a response whose status is outside the success range
    and whose body parses to an envelope with a non-empty string [message],
    every operation rejects with an [Error] whose message is that string. *)
Theorem error_message_from_envelope this w op req r props s :
  requests (trace (invoke this w op)) = [req] →
  fetch w req = Fulfilled r →
  ok r = false →
  json r = Fulfilled (VObj props) →
  lookup_prop "message" props = VStr s →
  s ≠ "" →
  outcome (invoke this w op) = Rejected (mkExn "Error" s).
Proof.
  intros Hreq Hfetch Hok Hjson Hmsg Hs.
  rewrite (error_from_truthy_message this w op req r (VObj props) (VStr s));
    try done.
  - simpl. by rewrite Hmsg.
  - simpl. by destruct (String.eqb_spec s "").
Qed.

(** When the envelope of a failed response has no truthy [message], the
    error message is built from the status code, which it ends with. *)
Lemma fallback_message_from_status this w op req r data message :
  requests (trace (invoke this w op)) = [req] →
  fetch w req = Fulfilled r →
  ok r = false →
  json r = Fulfilled data →
  get_message data = inr message →
  ToBoolean message = false →
  ∃ e, outcome (invoke this w op) = Rejected e ∧
       err_message e = "HTTP error! status: " +:+ pretty (status r) ∧
       contains (pretty (status r)) (err_message e) = true.
Proof.
  intros Hreq Hfetch Hok Hjson Hmsg Hfalsy.
  rewrite (invoke_outcome _ _ _ _ Hreq), Hfetch. unfold response_outcome.
  rewrite Hjson, Hok, Hmsg, Hfalsy. eexists. split; [done|]. simpl.
  split; [done|]. apply (contains_app_r "HTTP error! status: ").
Qed.

(** C10: a body that does not parse makes every operation reject, whatever
    the status: the body is parsed before the status is looked at, so no
    call resolves on such a response. *)
Theorem unparseable_body_rejects this w op req r e :
  requests (trace (invoke this w op)) = [req] →
  fetch w req = Fulfilled r →
  json r = Rejected e →
  outcome (invoke this w op) = Rejected e ∧
  ∀ data, outcome (invoke this w op) ≠ Fulfilled data.
Proof.
  intros Hreq Hfetch Hjson.
  rewrite (invoke_outcome _ _ _ _ Hreq), Hfetch. unfold response_outcome.
  by rewrite Hjson.
Qed.

(** ** Success *)

(** C5: every operation issues its one request, and when the response to
    it has a status in the success range and a body that parses, the call
    resolves with the parsed value itself. *)
Theorem success_returns_envelope this w op :
  ∃ req,
    requests (trace (invoke this w op)) = [req] ∧
    ∀ r data,
      fetch w req = Fulfilled r →
      ok r = true →
      json r = Fulfilled data →
      outcome (invoke this w op) = Fulfilled data.
Proof.
  destruct (invoke_run this w op) as (options & tok & log & _ & _ & Hreq & Hout).
  eexists. split; [exact Hreq|].
  intros r data Hfetch Hok Hjson.
  rewrite Hout, Hfetch. unfold response_outcome. by rewrite Hjson, Hok.
Qed.

(** ** Headers *)

(** C3: when there is no signed-in user, or when fetching the token throws,
    every operation still issues its request, the request has no
    [Authorization] header, and the call settles as the response decides. *)
Theorem token_failure_swallowed this w op :
  (currentUser w = None ∨
   ∃ u e, currentUser w = Some u ∧ getIdToken u = Rejected e) →
  ∃ req,
    requests (trace (invoke this w op)) = [req] ∧
    req_headers req !! "Authorization" = None ∧
    outcome (invoke this w op) = response_outcome (fetch w req).
Proof.
  intros Hfail.
  assert (∃ log, getAuthToken w [] = (Fulfilled None, log)) as [log Htok].
  { destruct Hfail as [Hu | (u & e & Hu & Ht)].
    - eexists. by apply getAuthToken_no_user.
    - eexists. by eapply getAuthToken_throws. }
  destruct (invoke_headers this w op None log Htok) as (req & options & Hreq & Hh & Hhd).
  exists req. split; [done|]. split.
  - rewrite Hhd. apply request_headers_anonymous; auto.
  - by apply invoke_outcome.
Qed.

(** C4, as amended: when the identity provider returned a non-empty token,
    the [Authorization] header of the request of every operation is exactly
    ["Bearer "] followed by the token. *)
Theorem bearer_header_exact this w op u token :
  currentUser w = Some u →
  getIdToken u = Fulfilled token →
  token ≠ "" →
  ∃ req,
    requests (trace (invoke this w op)) = [req] ∧
    req_headers req !! "Authorization" = Some ("Bearer " +:+ token).
Proof.
  intros Hu Ht Hne.
  destruct (invoke_headers this w op (Some token) []
              (getAuthToken_token w u token [] Hu Ht))
    as (req & options & Hreq & _ & Hhd).
  exists req. split; [done|]. rewrite Hhd. by apply request_headers_bearer.
Qed.

(** C9: when the identity provider returns the empty string as the token,
    the request of every operation has no [Authorization] header. *)
Theorem empty_token_no_authorization this w op u :
  currentUser w = Some u →
  getIdToken u = Fulfilled "" →
  ∃ req,
    requests (trace (invoke this w op)) = [req] ∧
    req_headers req !! "Authorization" = None.
Proof.
  intros Hu Ht.
  destruct (invoke_headers this w op (Some "") []
              (getAuthToken_token w u "" [] Hu Ht))
    as (req & options & Hreq & Hh & Hhd).
  exists req. split; [done|]. rewrite Hhd. apply request_headers_anonymous; auto.
Qed.

(** C6: the request of every operation has the header
    [Content-Type: application/json], whatever the token step gave and
    whatever the method and the body are. *)
Theorem content_type_always this w op :
  ∃ req,
    requests (trace (invoke this w op)) = [req] ∧
    req_headers req !! "Content-Type" = Some "application/json".
Proof.
  destruct (getAuthToken_total w []) as (tok & log & Htok & _). simpl in Htok.
  destruct (invoke_headers this w op tok log Htok) as (req & options & Hreq & Hh & Hhd).
  exists req. split; [done|]. rewrite Hhd. by apply request_headers_content_type.
Qed.

(** ** Requests *)

(** C7: [updateProfile({firstName: "A"})] issues exactly one request; its
    method is PATCH, its URL is the base URL followed by [/api/auth/profile],
    and its body is the text [{"firstName":"A"}]. *)
Theorem updateProfile_firstName_request this w :
  ∃ req,
    requests (trace (updateProfile this w (VObj [("firstName", VStr "A")]))) = [req] ∧
    req_method req = Some "PATCH" ∧
    req_url req = baseURL this +:+ "/api/auth/profile" ∧
    req_body req =
      Some ("{" +:+ dquote +:+ "firstName" +:+ dquote +:+ ":" +:+
            dquote +:+ "A" +:+ dquote +:+ "}").
Proof.
  unfold updateProfile.
  destruct (makeRequest_shape this w "/api/auth/profile"
              (mkInit (Some "PATCH") (JSON_stringify (VObj [("firstName", VStr "A")])) None))
    as (tok & log & _ & Hreq & _).
  eexists. split; [exact Hreq|]. done.
Qed.

(** C8: without [NEXT_PUBLIC_API_URL] the base URL of the exported client is
    [http://localhost:8000], and the URL of the request of every operation is
    that base URL followed by the path of the operation. *)
Theorem default_base_url :
  API_BASE_URL None = "http://localhost:8000" ∧
  baseURL (apiService None) = "http://localhost:8000" ∧
  ∀ w op, ∃ req,
    requests (trace (invoke (apiService None) w op)) = [req] ∧
    req_url req = "http://localhost:8000" +:+ spec_endpoint op.
Proof.
  split; [done|]. split; [done|]. intros w op.
  destruct (invoke_run (apiService None) w op) as (options & tok & log & _ & _ & Hreq & _).
  eexists. split; [exact Hreq|]. done.
Qed.

End Properties.

(** * Concrete runs *)

(** ** Where the stated properties fail *)

(** C1 as stated fails on an envelope whose message is the empty string: a
    401 response with [{success: false, message: ""}] makes [getProfile]
    reject with the message built from the status, not with the message of
    the envelope. *)
Lemma empty_envelope_message_replaced :
  requests (trace (invoke (apiService None) (mock None empty_message_response) GetProfile))
    = [profile_request None] ∧
  fetch (mock None empty_message_response) (profile_request None)
    = Fulfilled empty_message_response ∧
  ok empty_message_response = false ∧
  json empty_message_response = Fulfilled empty_message_envelope ∧
  get_message empty_message_envelope = inr (VStr "") ∧
  outcome (invoke (apiService None) (mock None empty_message_response) GetProfile)
    = Rejected (mkExn "Error" "HTTP error! status: 401") ∧
  ¬ ∃ e,
      outcome (invoke (apiService None) (mock None empty_message_response) GetProfile)
        = Rejected e ∧
      err_message e = "".
Proof.
  split_and!; try (vm_compute; reflexivity).
  intros (e & He & Hmsg). vm_compute in He. injection He as <-. discriminate Hmsg.
Qed.

(** C2: the code departs from the claim on a 500 response with an empty
    body.  [response.json()] is awaited before the status is looked at, so
    [getProfile] rejects with the parse error, whose message does not
    mention 500; the message built from the status is never reached. *)
Lemma unparseable_500_keeps_parse_error :
  requests (trace (invoke (apiService None) (mock None (empty_body 500)) GetProfile))
    = [profile_request None] ∧
  fetch (mock None (empty_body 500)) (profile_request None) = Fulfilled (empty_body 500) ∧
  ok (empty_body 500) = false ∧
  json (empty_body 500) = Rejected parse_error ∧
  outcome (invoke (apiService None) (mock None (empty_body 500)) GetProfile)
    = Rejected parse_error ∧
  ¬ ∃ e,
      outcome (invoke (apiService None) (mock None (empty_body 500)) GetProfile)
        = Rejected e ∧
      contains "500" (err_message e) = true.
Proof.
  split_and!; try (vm_compute; reflexivity).
  intros (e & He & Hmsg). vm_compute in He. injection He as <-. vm_compute in Hmsg.
  discriminate Hmsg.
Qed.

(** C4 as stated fails on the empty token: the provider resolved with a
    string, and the request of [getProfile] has no [Authorization] header at
    all. *)
Lemma empty_token_not_sent :
  currentUser (mock (signed_in "") ok_response) = Some (mkUser (Fulfilled "")) ∧
  requests (trace (invoke (apiService None) (mock (signed_in "") ok_response) GetProfile))
    = [profile_request (Some "")] ∧
  req_headers (profile_request (Some "")) !! "Authorization" = None ∧
  ¬ ∃ req,
      requests (trace (invoke (apiService None) (mock (signed_in "") ok_response) GetProfile))
        = [req] ∧
      req_headers req !! "Authorization" = Some ("Bearer " +:+ "").
Proof.
  assert (requests (trace (invoke (apiService None)
            (mock (signed_in "") ok_response) GetProfile))
          = [profile_request (Some "")]) as Hrun by (vm_compute; reflexivity).
  split_and!; try done.
  intros (req & Hreq & Hauth).
  rewrite Hrun in Hreq. injection Hreq as <-. vm_compute in Hauth. discriminate Hauth.
Qed.

(** ** Instances of the theorems *)

Lemma error_message_from_envelope_witness :
  outcome (invoke (apiService None) (mock None invalid_token_response) GetProfile)
  = Rejected (mkExn "Error" "invalid token").
Proof.
  apply (error_message_from_envelope _ _ _ (profile_request None)
           invalid_token_response
           [("success", VBool false); ("message", VStr "invalid token")]);
    [vm_compute; reflexivity | reflexivity | reflexivity | reflexivity
    | reflexivity | discriminate].
Defined.

Lemma unparseable_body_rejects_witness :
  ok (empty_body 200) = true ∧
  outcome (invoke (apiService None) (mock (signed_in "t0k3n") (empty_body 200)) GetProfile)
    = Rejected parse_error ∧
  ∀ data,
    outcome (invoke (apiService None) (mock (signed_in "t0k3n") (empty_body 200)) GetProfile)
      ≠ Fulfilled data.
Proof.
  split; [reflexivity|].
  apply (unparseable_body_rejects _ _ _ (profile_request (Some "t0k3n")) (empty_body 200));
    [vm_compute; reflexivity | reflexivity | reflexivity].
Defined.

Lemma success_returns_envelope_witness :
  requests (trace (invoke (apiService None) (mock (signed_in "t0k3n") ok_response) GetProfile))
    = [profile_request (Some "t0k3n")] ∧
  ok ok_response = true ∧
  json ok_response = Fulfilled ok_envelope ∧
  outcome (invoke (apiService None) (mock (signed_in "t0k3n") ok_response) GetProfile)
    = Fulfilled ok_envelope.
Proof.
  split; [vm_compute; reflexivity|]. split; [reflexivity|]. split; [reflexivity|].
  destruct (success_returns_envelope (apiService None)
              (mock (signed_in "t0k3n") ok_response) GetProfile)
    as (req & _ & Hresolve).
  apply (Hresolve ok_response ok_envelope); reflexivity.
Defined.

Lemma token_failure_swallowed_witness :
  ∃ req,
    requests (trace (invoke (apiService None) (mock failing_provider ok_response) VerifyToken))
      = [req] ∧
    req_headers req !! "Authorization" = None ∧
    outcome (invoke (apiService None) (mock failing_provider ok_response) VerifyToken)
      = response_outcome (fetch (mock failing_provider ok_response) req).
Proof.
  apply token_failure_swallowed.
  right. exists (mkUser (Rejected provider_error)), provider_error.
  split; reflexivity.
Defined.

(** The same without a session: [getProfile] goes out anonymously and the
    401 of the server is what the caller sees. *)
Example no_session_anonymous_request :
  requests (trace (invoke (apiService None) (mock None invalid_token_response) GetProfile))
    = [profile_request None] ∧
  req_headers (profile_request None) !! "Authorization" = None ∧
  trace (invoke (apiService None) (mock None invalid_token_response) GetProfile)
    = [EvFetch (profile_request None);
       EvConsoleError "API request failed for /api/auth/profile:"
         (mkExn "Error" "invalid token")].
Proof. split_and!; vm_compute; reflexivity. Qed.

(** A message object that shadows [toString], and an array message with
    [null] and nested elements. *)
Example message_conversion_runs :
  outcome (invoke (apiService None)
             (mock None (mkResponse 400
                           (Fulfilled (VObj [("message", VObj [("toString", VStr "x")])]))))
             GetProfile)
    = Rejected (mkExn "TypeError" "Cannot convert object to primitive value") ∧
  outcome (invoke (apiService None)
             (mock None (mkResponse 400
                           (Fulfilled (VObj [("message",
                                              VArr [VStr "a"; VNull; VArr [VBool true; VNum 7%Z]])]))))
             GetProfile)
    = Rejected (mkExn "Error" "a,,true,7").
Proof. split; vm_compute; reflexivity. Qed.

Lemma bearer_header_exact_witness :
  ∃ req,
    requests (trace (invoke (apiService None) (mock (signed_in "t0k3n") ok_response) RefreshToken))
      = [req] ∧
    req_headers req !! "Authorization" = Some "Bearer t0k3n".
Proof.
  apply (bearer_header_exact _ _ _ (mkUser (Fulfilled "t0k3n")) "t0k3n");
    [reflexivity | reflexivity | discriminate].
Defined.

Lemma empty_token_no_authorization_witness :
  ∃ req,
    requests (trace (invoke (apiService None) (mock (signed_in "") ok_response) HealthCheck))
      = [req] ∧
    req_headers req !! "Authorization" = None.
Proof.
  apply (empty_token_no_authorization _ _ _ (mkUser (Fulfilled "")));
    reflexivity.
Defined.

(** * The rest of the request pipeline *)

Section Pipeline.
Context {Num : JsNumber}.

(** ** The trace of a call *)

Lemma getAuthToken_trace w :
  ∃ tok, getAuthToken w [] = (Fulfilled tok, token_log w).
Proof.
  unfold token_log. destruct (currentUser w) as [u|] eqn:Hu.
  - destruct (getIdToken u) as [t|e] eqn:Ht.
    + exists (Some t). by apply (getAuthToken_token w u t []).
    + exists None. by apply (getAuthToken_throws w u e []).
  - exists None. by apply getAuthToken_no_user.
Qed.

Lemma makeRequest_trace this w endpoint options tok log :
  getAuthToken w [] = (Fulfilled tok, log) →
  run (makeRequest this w endpoint options) =
    (response_outcome (fetch w (request_of this endpoint options tok)),
     (log ++ EvFetch (request_of this endpoint options tok)
          :: failure_log endpoint
               (response_outcome (fetch w (request_of this endpoint options tok))))%list).
Proof.
  intros Htok. unfold run, makeRequest, response_outcome.
  rewrite (bind_fulfilled _ _ _ _ _ Htok). fold (request_of this endpoint options tok).
  set (req := request_of this endpoint options tok).
  unfold try_catch, call_fetch, mbind, Async_bind, emit, await, console_error, emit, throw.
  simpl. destruct (fetch w req) as [response|e]; simpl; [|by rewrite <- app_assoc].
  destruct (json response) as [data|e]; simpl; [|by rewrite <- app_assoc].
  destruct (ok response); simpl; [done|].
  destruct (get_message data) as [e|message]; simpl; [by rewrite <- app_assoc|].
  destruct (new_Error _) as [e|error]; simpl; by rewrite <- app_assoc.
Qed.

Lemma invoke_trace this w op :
  ∃ req,
    trace (invoke this w op) =
      (token_log w ++ EvFetch req
         :: failure_log (spec_endpoint op) (outcome (invoke this w op)))%list.
Proof.
  destruct (invoke_makeRequest this w op) as (options & _ & ->).
  destruct (getAuthToken_trace w) as [tok Htok].
  exists (request_of this (spec_endpoint op) options tok).
  unfold trace, outcome.
  by rewrite (makeRequest_trace this w (spec_endpoint op) options tok _ Htok).
Qed.

(** X1: the console and network effects of every call are, in this order:
    the entry of a failed token fetch if there was one, exactly one [fetch],
    and one failure entry, carrying the thrown error, exactly when the call
    rejects. *)
Theorem trace_shape this w op :
  ∃ req,
    requests (trace (invoke this w op)) = [req] ∧
    trace (invoke this w op) =
      (token_log w ++ EvFetch req
         :: failure_log (spec_endpoint op) (outcome (invoke this w op)))%list.
Proof.
  destruct (invoke_trace this w op) as [req Htr]. exists req. split; [|done].
  rewrite Htr, requests_app. unfold token_log, failure_log.
  destruct (currentUser w) as [u|]; [destruct (getIdToken u)|];
    by destruct (outcome (invoke this w op)).
Qed.

(** X2: a call that rejects ends its trace with the [console.error] of the
    [catch] block, labelled with the endpoint path and carrying the very
    error the caller receives. *)
Theorem rejected_call_logs_error this w op e :
  outcome (invoke this w op) = Rejected e →
  last (trace (invoke this w op)) =
    Some (EvConsoleError ("API request failed for " +:+ spec_endpoint op +:+ ":") e).
Proof.
  intros Hout. destruct (invoke_trace this w op) as [req ->].
  rewrite Hout. simpl. rewrite last_app. by simpl.
Qed.

(** X3: a call that resolves, made while the token step did not throw,
    writes nothing to the console: its whole trace is the one [fetch]. *)
Theorem resolved_call_logs_nothing this w op data :
  token_log w = [] →
  outcome (invoke this w op) = Fulfilled data →
  ∃ req, trace (invoke this w op) = [EvFetch req].
Proof.
  intros Htok Hout. destruct (invoke_trace this w op) as [req Htr].
  exists req. by rewrite Htr, Htok, Hout.
Qed.

(** ** Outcomes *)

(** X4: when [fetch] itself rejects (the network is down), every operation
    rejects with that same error. *)
Theorem transport_failure_propagates this w op req e :
  requests (trace (invoke this w op)) = [req] →
  fetch w req = Rejected e →
  outcome (invoke this w op) = Rejected e.
Proof.
  intros Hreq Hfetch. by rewrite (invoke_outcome _ _ _ _ Hreq), Hfetch.
Qed.

(** X5: a call resolves with [data] exactly when [fetch] resolved with a
    response whose status is between 200 and 299 and whose body parsed to
    [data]; in every other case it rejects. *)
Theorem resolves_iff_success_response this w op req data :
  requests (trace (invoke this w op)) = [req] →
  outcome (invoke this w op) = Fulfilled data ↔
  ∃ r, fetch w req = Fulfilled r ∧ json r = Fulfilled data ∧
       (200 ≤ status r ≤ 299)%N.
Proof.
  intros Hreq. rewrite (invoke_outcome _ _ _ _ Hreq). unfold response_outcome, ok.
  split.
  - destruct (fetch w req) as [r|e]; [|done].
    destruct (json r) as [d|e] eqn:Hjson; [|done].
    destruct (200 <=? status r)%N eqn:Hlo; simpl.
    + destruct (status r <=? 299)%N eqn:Hhi; simpl.
      * intros [= ->]. exists r. split_and!; try done.
        -- by apply N.leb_le.
        -- by apply N.leb_le.
      * destruct (get_message d); [done|]. by destruct (new_Error _).
    + destruct (get_message d); [done|]. by destruct (new_Error _).
  - intros (r & -> & -> & Hlo & Hhi).
    apply N.leb_le in Hlo, Hhi. by rewrite Hlo, Hhi.
Qed.

(** X6: on a response outside the success range whose body is the JSON value
    [null], reading [data.message] throws, and every operation rejects with
    that TypeError instead of an error built from the envelope or the
    status. *)
Theorem null_body_type_error this w op req r :
  requests (trace (invoke this w op)) = [req] →
  fetch w req = Fulfilled r →
  ok r = false →
  json r = Fulfilled VNull →
  ∃ e, outcome (invoke this w op) = Rejected e ∧ err_name e = "TypeError".
Proof.
  intros Hreq Hfetch Hok Hjson.
  rewrite (invoke_outcome _ _ _ _ Hreq), Hfetch. unfold response_outcome.
  rewrite Hjson, Hok. simpl. by eexists.
Qed.

(** X7: on a response outside the success range whose envelope has a truthy
    [message], the error message is the string conversion of that value: a
    string gives itself and an object gives ["[object Object]"].  Where the
    conversion throws, as on an object with an own [toString] property, the
    call rejects with that TypeError instead. *)
Theorem error_message_is_string_conversion this w op req r data message :
  requests (trace (invoke this w op)) = [req] →
  fetch w req = Fulfilled r →
  ok r = false →
  json r = Fulfilled data →
  get_message data = inr message →
  ToBoolean message = true →
  outcome (invoke this w op) =
    Rejected (match ToString message with
              | inl e => e
              | inr s => mkExn "Error" s
              end).
Proof.
  intros Hreq Hfetch Hok Hjson Hmsg Htruthy.
  rewrite (invoke_outcome _ _ _ _ Hreq), Hfetch. unfold response_outcome.
  rewrite Hjson, Hok, Hmsg, Htruthy. unfold new_Error.
  destruct message; try done; by destruct (ToString _).
Qed.

(** X15: on a response outside the success range whose envelope has no
    [message] property, or a falsy one, or whose body is a JSON value other
    than an object or [null], every operation rejects with the message
    ["HTTP error! status: "] followed by the status in decimal. *)
Theorem status_fallback_without_message this w op req r data message :
  requests (trace (invoke this w op)) = [req] →
  fetch w req = Fulfilled r →
  ok r = false →
  json r = Fulfilled data →
  get_message data = inr message →
  ToBoolean message = false →
  outcome (invoke this w op) =
    Rejected (mkExn "Error" ("HTTP error! status: " +:+ pretty (status r))) ∧
  contains (pretty (status r)) ("HTTP error! status: " +:+ pretty (status r)) = true.
Proof.
  intros Hreq Hfetch Hok Hjson Hmsg Hfalsy. split.
  - rewrite (invoke_outcome _ _ _ _ Hreq), Hfetch. unfold response_outcome.
    by rewrite Hjson, Hok, Hmsg, Hfalsy.
  - apply contains_app_r.
Qed.

(** ** Headers brought by the caller of [makeRequest] *)

(** X8: a header the caller passes in [options.headers] reaches [fetch]
    unchanged, whatever the token step gave, unless it is [Authorization];
    in particular a [Content-Type] of the caller replaces
    [application/json]. *)
Theorem caller_headers_kept this w endpoint options h key v :
  headers options = Some h →
  h !! key = Some v →
  key ≠ "Authorization" →
  ∃ req,
    requests (trace (makeRequest this w endpoint options)) = [req] ∧
    req_headers req !! key = Some v.
Proof.
  intros Hh Hkey Hne.
  destruct (makeRequest_shape this w endpoint options) as (tok & log & _ & Hreq & _).
  eexists. split; [exact Hreq|]. simpl. unfold request_headers. rewrite Hh. simpl.
  assert ((h ∪ {["Content-Type" := "application/json"]}) !! key = Some v) as Hu
    by by apply lookup_union_Some_l.
  destruct tok as [t|]; [destruct (String.eqb t "")|]; simpl; try done.
  by rewrite lookup_insert_ne.
Qed.

(** X9: with a non-empty token, the [Authorization] header set by
    [makeRequest] replaces one the caller passed in [options.headers]. *)
Theorem bearer_overrides_caller_authorization this w endpoint options u token :
  currentUser w = Some u →
  getIdToken u = Fulfilled token →
  token ≠ "" →
  ∃ req,
    requests (trace (makeRequest this w endpoint options)) = [req] ∧
    req_headers req !! "Authorization" = Some ("Bearer " +:+ token).
Proof.
  intros Hu Ht Hne.
  destruct (makeRequest_shape this w endpoint options) as (tok & log & Htok & Hreq & _).
  rewrite (getAuthToken_token w u token [] Hu Ht) in Htok. injection Htok as <- <-.
  eexists. split; [exact Hreq|]. simpl. by apply request_headers_bearer.
Qed.

(** X10: without a usable token (no user, a token fetch that throws, or an
    empty token) the [Authorization] header is whatever the caller passed in
    [options.headers], if anything. *)
Theorem caller_authorization_kept_without_token this w endpoint options h :
  (currentUser w = None ∨
   ∃ u, currentUser w = Some u ∧
        (getIdToken u = Fulfilled "" ∨ ∃ e, getIdToken u = Rejected e)) →
  headers options = Some h →
  ∃ req,
    requests (trace (makeRequest this w endpoint options)) = [req] ∧
    req_headers req !! "Authorization" = h !! "Authorization".
Proof.
  intros Hw Hh.
  destruct (makeRequest_shape this w endpoint options) as (tok & log & Htok & Hreq & _).
  eexists. split; [exact Hreq|]. simpl.
  assert (tok = None ∨ tok = Some "") as Htk.
  { destruct Hw as [Hu | (u & Hu & [Ht | [e Ht]])].
    - rewrite (getAuthToken_no_user w [] Hu) in Htok. left. congruence.
    - rewrite (getAuthToken_token w u "" [] Hu Ht) in Htok. right. congruence.
    - rewrite (getAuthToken_throws w u e [] Hu Ht) in Htok. left. congruence. }
  unfold request_headers. rewrite Hh.
  destruct Htk as [-> | ->]; simpl;
    rewrite lookup_union_l; try done; by simplify_map_eq.
Qed.

(** ** The request line of every operation *)

(** X11: with [NEXT_PUBLIC_API_URL] set, the URL of the request of every
    operation of the exported client is that value followed by the path of
    the operation; an empty value counts as unset and gives the local
    default. *)
Theorem base_url_from_environment url w op :
  ∃ req,
    requests (trace (invoke (apiService (Some url)) w op)) = [req] ∧
    req_url req =
      (if String.eqb url "" then "http://localhost:8000" else url) +:+ spec_endpoint op.
Proof.
  destruct (invoke_run (apiService (Some url)) w op)
    as (options & tok & log & _ & _ & Hreq & _).
  eexists. split; [exact Hreq|]. done.
Qed.

Lemma invoke_options this w op :
  invoke this w op =
    makeRequest this w (spec_endpoint op)
      (mkInit (spec_method op) (spec_payload op ≫= JSON_stringify) None).
Proof. by destruct op. Qed.

(** X12: the request of every operation has the method of that operation
    (none for [healthCheck] and [getProfile]), and its body is the JSON text
    of the payload of the operation, absent for the operations that take
    none. *)
Theorem request_method_and_body this w op :
  ∃ req,
    requests (trace (invoke this w op)) = [req] ∧
    req_method req = spec_method op ∧
    req_body req = spec_payload op ≫= JSON_stringify.
Proof.
  rewrite invoke_options.
  destruct (makeRequest_shape this w (spec_endpoint op)
              (mkInit (spec_method op) (spec_payload op ≫= JSON_stringify) None))
    as (tok & log & _ & Hreq & _).
  eexists. split; [exact Hreq|]. done.
Qed.

(** ** The token step *)

(** X13: [getAuthToken] never rejects, and it resolves with a token exactly
    when there is a signed-in user whose [getIdToken()] resolved with it; in
    every other case it resolves with [null]. *)
Theorem getAuthToken_characterised w :
  (∀ e, outcome (getAuthToken w) ≠ Rejected e) ∧
  ∀ t, outcome (getAuthToken w) = Fulfilled (Some t) ↔
       ∃ u, currentUser w = Some u ∧ getIdToken u = Fulfilled t.
Proof.
  unfold outcome, run. split.
  - intros e. destruct (getAuthToken_trace w) as [tok ->]. done.
  - intros t. split.
    + destruct (currentUser w) as [u|] eqn:Hu.
      * destruct (getIdToken u) as [t'|e] eqn:Ht.
        -- rewrite (getAuthToken_token w u t' [] Hu Ht). intros [= ->]. by exists u.
        -- by rewrite (getAuthToken_throws w u e [] Hu Ht).
      * by rewrite (getAuthToken_no_user w [] Hu).
    + intros (u & Hu & Ht). by rewrite (getAuthToken_token w u t [] Hu Ht).
Qed.

(** X14: the request of an operation has an [Authorization] header exactly
    when the identity provider gave a non-empty token, and the header is then
    ["Bearer "] followed by that token. *)
Theorem authorization_iff_token this w op req v :
  requests (trace (invoke this w op)) = [req] →
  req_headers req !! "Authorization" = Some v ↔
  ∃ u t, currentUser w = Some u ∧ getIdToken u = Fulfilled t ∧ t ≠ "" ∧
         v = "Bearer " +:+ t.
Proof.
  intros Hreq. split.
  - intros Hv.
    destruct (currentUser w) as [u|] eqn:Hu.
    + destruct (getIdToken u) as [t|e] eqn:Ht.
      * destruct (invoke_headers this w op (Some t) _ (getAuthToken_token w u t [] Hu Ht))
          as (req' & options & Hreq' & Hh & Hhd).
        rewrite Hreq in Hreq'. injection Hreq' as <-. rewrite Hhd in Hv.
        destruct (String.eqb_spec t "") as [-> | Hne].
        -- rewrite request_headers_anonymous in Hv; auto. done.
        -- rewrite request_headers_bearer in Hv by done.
           exists u, t. split_and!; try done. congruence.
      * destruct (invoke_headers this w op None _ (getAuthToken_throws w u e [] Hu Ht))
          as (req' & options & Hreq' & Hh & Hhd).
        rewrite Hreq in Hreq'. injection Hreq' as <-.
        rewrite Hhd, request_headers_anonymous in Hv; auto. done.
    + destruct (invoke_headers this w op None _ (getAuthToken_no_user w [] Hu))
        as (req' & options & Hreq' & Hh & Hhd).
      rewrite Hreq in Hreq'. injection Hreq' as <-.
      rewrite Hhd, request_headers_anonymous in Hv; auto. done.
  - intros (u & t & Hu & Ht & Hne & ->).
    destruct (invoke_headers this w op (Some t) _ (getAuthToken_token w u t [] Hu Ht))
      as (req' & options & Hreq' & _ & Hhd).
    rewrite Hreq in Hreq'. injection Hreq' as <-.
    rewrite Hhd. by apply request_headers_bearer.
Qed.

End Pipeline.

(** ** Instances *)

Lemma rejected_call_logs_error_witness :
  last (trace (invoke (apiService None) (offline None) GetProfile)) =
    Some (EvConsoleError "API request failed for /api/auth/profile:" network_error).
Proof.
  apply (rejected_call_logs_error (apiService None) (offline None) GetProfile network_error).
  vm_compute; reflexivity.
Defined.

Lemma resolved_call_logs_nothing_witness :
  ∃ req,
    trace (invoke (apiService None) (mock (signed_in "t0k3n") ok_response) GetProfile)
    = [EvFetch req].
Proof.
  apply (resolved_call_logs_nothing _ _ _ ok_envelope);
    [reflexivity | vm_compute; reflexivity].
Defined.

Lemma transport_failure_propagates_witness :
  outcome (invoke (apiService None) (offline (signed_in "t0k3n")) GetProfile)
  = Rejected network_error.
Proof.
  apply (transport_failure_propagates _ _ _ (profile_request (Some "t0k3n")));
    [vm_compute; reflexivity | reflexivity].
Defined.

Lemma resolves_iff_success_response_witness :
  outcome (invoke (apiService None) (mock None ok_response) GetProfile)
    = Fulfilled ok_envelope ↔
  ∃ r, fetch (mock None ok_response) (profile_request None) = Fulfilled r ∧
       json r = Fulfilled ok_envelope ∧ (200 ≤ status r ≤ 299)%N.
Proof.
  apply (resolves_iff_success_response _ _ _ (profile_request None)).
  vm_compute; reflexivity.
Defined.

Lemma null_body_type_error_witness :
  ∃ e,
    outcome (invoke (apiService None) (mock None null_response) GetProfile) = Rejected e ∧
    err_name e = "TypeError".
Proof.
  apply (null_body_type_error _ _ _ (profile_request None) null_response);
    [vm_compute; reflexivity | reflexivity | reflexivity | reflexivity].
Defined.

Lemma error_message_is_string_conversion_witness :
  outcome (invoke (apiService None) (mock None object_message_response) GetProfile)
  = Rejected (mkExn "Error" "[object Object]").
Proof.
  apply (error_message_is_string_conversion _ _ _ (profile_request None)
           object_message_response
           (VObj [("success", VBool false);
                  ("message", VObj [("email", VStr "is invalid")])])
           (VObj [("email", VStr "is invalid")]));
    [vm_compute; reflexivity | reflexivity | reflexivity | reflexivity
    | reflexivity | reflexivity].
Defined.

Lemma status_fallback_without_message_witness :
  outcome (invoke (apiService None) (mock None no_message_response) GetProfile)
    = Rejected (mkExn "Error" "HTTP error! status: 404") ∧
  contains "404" "HTTP error! status: 404" = true.
Proof.
  apply (status_fallback_without_message _ _ _ (profile_request None) no_message_response
           (VObj [("success", VBool false)]) VUndefined);
    [vm_compute; reflexivity | reflexivity | reflexivity | reflexivity
    | reflexivity | reflexivity].
Defined.

Lemma caller_headers_kept_witness :
  ∃ req,
    requests (trace (makeRequest (apiService None) (mock (signed_in "t0k3n") ok_response)
                       "/api/files" custom_options)) = [req] ∧
    req_headers req !! "Content-Type" = Some "text/plain".
Proof.
  apply (caller_headers_kept _ _ _ custom_options custom_headers);
    [reflexivity | vm_compute; reflexivity | discriminate].
Defined.

Lemma bearer_overrides_caller_authorization_witness :
  ∃ req,
    requests (trace (makeRequest (apiService None) (mock (signed_in "t0k3n") ok_response)
                       "/api/files" custom_options)) = [req] ∧
    req_headers req !! "Authorization" = Some "Bearer t0k3n".
Proof.
  apply (bearer_overrides_caller_authorization _ _ _ _ (mkUser (Fulfilled "t0k3n")) "t0k3n");
    [reflexivity | reflexivity | discriminate].
Defined.

Lemma caller_authorization_kept_without_token_witness :
  custom_headers !! "Authorization" = Some "Basic abc" ∧
  ∃ req,
    requests (trace (makeRequest (apiService None) (mock failing_provider ok_response)
                       "/api/files" custom_options)) = [req] ∧
    req_headers req !! "Authorization" = custom_headers !! "Authorization".
Proof.
  split; [vm_compute; reflexivity|].
  apply (caller_authorization_kept_without_token _ _ _ custom_options custom_headers);
    [|reflexivity].
  right. exists (mkUser (Rejected provider_error)). split; [reflexivity|].
  right. by exists provider_error.
Defined.

Lemma authorization_iff_token_witness :
  req_headers (profile_request (Some "t0k3n")) !! "Authorization" = Some "Bearer t0k3n" ↔
  ∃ u t,
    currentUser (mock (signed_in "t0k3n") ok_response) = Some u ∧
    getIdToken u = Fulfilled t ∧ t ≠ "" ∧ "Bearer t0k3n" = "Bearer " +:+ t.
Proof.
  apply (authorization_iff_token (apiService None) (mock (signed_in "t0k3n") ok_response)
           GetProfile).
  vm_compute; reflexivity.
Defined.
